(** * ApplicationFooter: the footer bar of a command-center application

    Shallow embedding of
    [mage_ai/frontend/components/CommandCenter/ApplicationFooter/index.tsx].

    The component is a function from a props object to a tree of React
    elements.  It reads possibly missing data through [?.] and [??], calls the
    two lookup collaborators [getIcon] and [getIconColor], and wires a click
    handler to every button that calls [executeButtonActions].  The embedding
    keeps these three aspects apart:

    - JavaScript values that may be missing are [Nullable];
    - calls to collaborators and thrown errors live in the monad [Js];
    - the element tree is the inductive [Node], with the click handlers as
      suspended [Js] computations. *)

From Stdlib Require Import String QArith DecimalString DecimalNat.
From stdpp Require Import base option list gmap.

Set Default Proof Using "Type".
Local Open Scope string_scope.

(** ** Missing values *)

(** A JavaScript value of type [A] that may also be [undefined] or [null]. *)
Inductive Nullable (A : Type) : Type :=
| undefined
| null
| value (a : A).
Arguments undefined {A}.
Arguments null {A}.
Arguments value {A} a.

(** [x?.f]: [undefined] when [x] is [undefined] or [null], else [x.f]. *)
Definition optional_chain {A B} (x : Nullable A) (f : A -> Nullable B)
    : Nullable B :=
  match x with
  | value a => f a
  | undefined | null => undefined
  end.

(** [x ?? d]: [d] when [x] is [undefined] or [null], else [x]. *)
Definition nullish_coalesce {A} (x : Nullable A) (d : A) : A :=
  match x with
  | value a => a
  | undefined | null => d
  end.

(** [obj[k]] on a plain object used as a table: a missing key reads as
    [undefined]. *)
Definition index {K A} `{Lookup K A M} (obj : M) (k : K) : Nullable A :=
  match obj !! k with
  | Some a => value a
  | None => undefined
  end.

(** [x?.map(f)] and [x?.length] on an array that may be missing. *)
Definition optional_map {A B} (x : Nullable (list A)) (f : A -> B)
    : Nullable (list B) :=
  optional_chain x (fun l => value (f <$> l)).

Definition optional_imap {A B} (x : Nullable (list A)) (f : A -> nat -> B)
    : Nullable (list B) :=
  optional_chain x (fun l => value (imap (fun idx a => f a idx) l)).

Definition optional_length {A} (x : Nullable (list A)) : Nullable nat :=
  optional_chain x (fun l => value (length l)).

Declare Scope js_scope.
Delimit Scope js_scope with js.
Notation "x ?. f" := (optional_chain x f) (at level 25, left associativity) : js_scope.
Notation "x ?? d" := (nullish_coalesce x d) (at level 40, left associativity) : js_scope.
Local Open Scope js_scope.

(** [`${x}`] inside a template literal. *)
Definition template (x : Nullable string) : string :=
  match x with
  | undefined => "undefined"
  | null => "null"
  | value s => s
  end.

Definition template_number (n : nat) : string :=
  NilEmpty.string_of_uint (Nat.to_uint n).

(** ** Data model *)

(** The records list the fields the footer reads; every field may be
    missing.  The elements of [buttons] and the key codes of a sequence are
    taken as present, as the element types of the two arrays say: the footer
    reads both without a guard. *)

(** Key codes are the numbers of [KeyboardEvent.keyCode]. *)
Definition KeyCode : Type := N.

Record DisplaySettings : Type := {
  color_uuid : Nullable string;
}.

Record Button : Type := {
  display_settings : Nullable DisplaySettings;
  keyboard_shortcuts : Nullable (list (Nullable (list KeyCode)));
  label : Nullable string;
  tooltip : Nullable string;
}.

Module Application.
Record t : Type := {
  uuid : Nullable string;
  buttons : Nullable (list Button);
}.
End Application.

Module Item.
Record t : Type := {
  applications : Nullable (list Application.t);
  title : Nullable string;
  uuid : Nullable string;
}.
End Item.

Record IconColor : Type := {
  accent : Nullable string;
}.

Inductive KeyTextsPostitionEnum : Type :=
| LEFT
| RIGHT.

Inductive JsError : Type :=
| TypeError (message : string).

(** ** The element tree *)

(** Props of [KeyboardShortcutButton] as the footer sets them.  [H] is the type
    of click handlers. *)
Record KeyboardShortcutButtonProps (H : Type) : Type := {
  addPlusSignBetweenKeys : bool;
  bold : bool;
  compact : bool;
  default : bool;
  keyTextGroups : Nullable (list (Nullable (list (Nullable string))));
  keyTextsPosition : KeyTextsPostitionEnum;
  noBackground : bool;
  onClick : H;
  uuid : string;
}.
Arguments addPlusSignBetweenKeys {H} _.
Arguments bold {H} _.
Arguments compact {H} _.
Arguments default {H} _.
Arguments keyTextGroups {H} _.
Arguments keyTextsPosition {H} _.
Arguments noBackground {H} _.
Arguments onClick {H} _.
Arguments uuid {H} _.

(** What a JSX expression evaluates to.  The element constructors carry the
    attributes the footer passes; [jsx_false], [jsx_undefined], [jsx_null],
    [jsx_string] and [jsx_array] are the non-element values a child slot such
    as [{idx >= 1 && ...}], [{title}] or [{buttons?.map(...)}] can hold.  [C]
    is the type of component references ([Icon] is looked up at run time). *)
#[warnings="-register-all"]
Inductive Node (C H : Type) : Type :=
| FlexContainer (key : Nullable string) (alignItems : string) (fullWidth : bool)
    (justifyContent : Nullable string) (children : list (Node C H))
| Flex (alignItems : string) (flex : Z) (children : list (Node C H))
| Icon (component : C) (fill : Nullable string) (size : Q)
| div (marginRight : Q)
| Text (default : bool) (weightStyle : Z) (children : list (Node C H))
| Spacing (mr : Q)
| KeyboardShortcutButton (props : KeyboardShortcutButtonProps H)
    (children : list (Node C H))
| jsx_false
| jsx_undefined
| jsx_null
| jsx_string (s : string)
| jsx_array (elements : list (Node C H)).
Arguments FlexContainer {C H} key alignItems fullWidth justifyContent children.
Arguments Flex {C H} alignItems flex children.
Arguments Icon {C H} component fill size.
Arguments div {C H} marginRight.
Arguments Text {C H} default weightStyle children.
Arguments Spacing {C H} mr.
Arguments KeyboardShortcutButton {C H} props children.
Arguments jsx_false {C H}.
Arguments jsx_undefined {C H}.
Arguments jsx_null {C H}.
Arguments jsx_string {C H} s.
Arguments jsx_array {C H} elements.

(** [{x}] for a string that may be missing. *)
Definition jsx_text {C H} (x : Nullable string) : Node C H :=
  match x with
  | undefined => jsx_undefined
  | null => jsx_null
  | value s => jsx_string s
  end.

(** [{x}] for an array of nodes that may be missing. *)
Definition jsx_nodes {C H} (x : Nullable (list (Node C H))) : Node C H :=
  match x with
  | undefined => jsx_undefined
  | null => jsx_null
  | value l => jsx_array l
  end.

(** React's reading of a child slot: booleans, [null] and [undefined] render
    nothing and arrays are spliced in place. *)
Fixpoint rendered {C H} (n : Node C H) : list (Node C H) :=
  match n with
  | jsx_false | jsx_undefined | jsx_null => []
  | jsx_array l => flat_map rendered l
  | _ => [n]
  end.

Definition children_of {C H} (n : Node C H) : list (Node C H) :=
  match n with
  | FlexContainer _ _ _ _ ch | Flex _ _ ch | Text _ _ ch
  | KeyboardShortcutButton _ ch => ch
  | _ => []
  end.

Definition rendered_children {C H} (n : Node C H) : list (Node C H) :=
  flat_map rendered (children_of n).

(** The same tree with every click handler replaced through [f]. *)
Definition map_props_onClick {H H'} (f : H -> H')
    (p : KeyboardShortcutButtonProps H) : KeyboardShortcutButtonProps H' :=
  {| addPlusSignBetweenKeys := addPlusSignBetweenKeys p;
     bold := bold p;
     compact := compact p;
     default := default p;
     keyTextGroups := keyTextGroups p;
     keyTextsPosition := keyTextsPosition p;
     noBackground := noBackground p;
     onClick := f (onClick p);
     uuid := uuid p |}.

Fixpoint map_onClick {C H H'} (f : H -> H') (n : Node C H) : Node C H' :=
  match n with
  | FlexContainer k a w j ch => FlexContainer k a w j (List.map (map_onClick f) ch)
  | Flex a fl ch => Flex a fl (List.map (map_onClick f) ch)
  | Icon c fl s => Icon c fl s
  | div m => div m
  | Text d w ch => Text d w (List.map (map_onClick f) ch)
  | Spacing m => Spacing m
  | KeyboardShortcutButton p ch =>
      KeyboardShortcutButton (map_props_onClick f p) (List.map (map_onClick f) ch)
  | jsx_false => jsx_false
  | jsx_undefined => jsx_undefined
  | jsx_null => jsx_null
  | jsx_string s => jsx_string s
  | jsx_array l => jsx_array (List.map (map_onClick f) l)
  end.

(** What is displayed: the tree without its click handlers. *)
Definition displayed {C H} (n : Node C H) : Node C unit :=
  map_onClick (fun _ => tt) n.

Section Component.

(** Values the footer only passes along: callbacks, refs, component
    references and whatever [executeButtonActions] returns. *)
Variable Value : Type.

(** ** Props *)

Record ApplicationProps : Type := {
  application : Nullable Application.t;
  applicationsRef : Value;
  executeAction : Value;
  focusedItemIndex : Nullable Z;
  item : Nullable Item.t;
  removeApplication : Value;
  refError : Value;
}.

(** The object literal handed to [executeButtonActions]. *)
Record ButtonActionsArgs : Type := {
  args_application : Nullable Application.t;
  args_button : Button;
  args_executeAction : Value;
  args_focusedItemIndex : Nullable Z;
  args_item : Nullable Item.t;
  args_refError : Value;
  args_removeApplication : Value;
}.

(** ** Effects *)

(** A JavaScript computation: it returns, throws, or calls one of the imported
    functions and goes on with the result. *)
Inductive Js (R : Type) : Type :=
| Ret (r : R)
| Throw (e : JsError)
| Call_getIcon (it : Item.t) (k : Value -> Js R)
| Call_getIconColor (it : Item.t) (k : Nullable IconColor -> Js R)
| Call_executeButtonActions (args : ButtonActionsArgs) (k : Value -> Js R).
Arguments Ret {R} r.
Arguments Throw {R} e.
Arguments Call_getIcon {R} it k.
Arguments Call_getIconColor {R} it k.
Arguments Call_executeButtonActions {R} args k.

Fixpoint Js_bind {A B} (f : A -> Js B) (p : Js A) : Js B :=
  match p with
  | Ret a => f a
  | Throw e => Throw e
  | Call_getIcon it k => Call_getIcon it (fun v => Js_bind f (k v))
  | Call_getIconColor it k => Call_getIconColor it (fun v => Js_bind f (k v))
  | Call_executeButtonActions args k =>
      Call_executeButtonActions args (fun v => Js_bind f (k v))
  end.

#[local] Instance Js_mret : MRet Js := @Ret.
#[local] Instance Js_mbind : MBind Js := @Js_bind.

Definition call_getIcon (it : Item.t) : Js Value := Call_getIcon it Ret.
Definition call_getIconColor (it : Item.t) : Js (Nullable IconColor) :=
  Call_getIconColor it Ret.
Definition call_executeButtonActions (args : ButtonActionsArgs) : Js Value :=
  Call_executeButtonActions args Ret.

(** Destructuring [const { ... } = x] throws on [undefined] and [null]. *)
Definition destructure {A} (x : Nullable A) : Js A :=
  match x with
  | value a => Ret a
  | undefined => Throw (TypeError "Cannot destructure 'undefined'")
  | null => Throw (TypeError "Cannot destructure 'null'")
  end.

(** The imported functions, as the environment provides them; they are taken
    to answer every call. *)
Record Collaborators : Type := {
  getIcon : Item.t -> Value;
  getIconColor : Item.t -> Nullable IconColor;
  executeButtonActions : ButtonActionsArgs -> Value;
}.

Inductive Event : Type :=
| Called_getIcon (it : Item.t)
| Called_getIconColor (it : Item.t)
| Called_executeButtonActions (args : ButtonActionsArgs).

(** Running a computation against the collaborators gives the calls made, in
    order, and the outcome. *)
Fixpoint run {R} (env : Collaborators) (p : Js R) : list Event * (JsError + R) :=
  match p with
  | Ret r => ([], inr r)
  | Throw e => ([], inl e)
  | Call_getIcon it k =>
      let '(calls, out) := run env (k (getIcon env it)) in
      (Called_getIcon it :: calls, out)
  | Call_getIconColor it k =>
      let '(calls, out) := run env (k (getIconColor env it)) in
      (Called_getIconColor it :: calls, out)
  | Call_executeButtonActions args k =>
      let '(calls, out) := run env (k (executeButtonActions env args)) in
      (Called_executeButtonActions args :: calls, out)
  end.

(** A click handler is a computation that has not run yet. *)
Definition Handler : Type := Js Value.

Definition Element : Type := Node Value Handler.

(** ** The component *)

(** Imported constants: [UNIT] and [PADDING_UNITS] of the spacing styles and
    the table from key codes to the symbols shown for them. *)
Variable UNIT : Q.
Variable PADDING_UNITS : Q.
Variable KEY_CODE_KEY_SYMBOL_MAPPING : gmap KeyCode string.

(** The arrow function given to [buttons.map] (lines 54 to 92). *)
Definition renderButton (props : ApplicationProps) (buttonsCount : nat)
    (button : Button) (idx : nat) : Element :=
  let displaySettings := display_settings button in
  let keyboardShortcuts := keyboard_shortcuts button in
  let label := label button in
  let tooltip := tooltip button in
  let colorUUID := displaySettings ?. color_uuid in
  FlexContainer label "center" false undefined
    [ (if (1 <=? idx)%nat then Spacing PADDING_UNITS else jsx_false);
      KeyboardShortcutButton
        {| addPlusSignBetweenKeys := true;
           bold := true;
           compact := true;
           default := (idx =? 0)%nat && (2 <=? buttonsCount)%nat;
           keyTextGroups :=
             optional_map keyboardShortcuts
               (fun arr => optional_map arr
                  (fun keyCode => index KEY_CODE_KEY_SYMBOL_MAPPING keyCode));
           keyTextsPosition := RIGHT;
           noBackground := (idx =? 0)%nat && (2 <=? buttonsCount)%nat;
           onClick :=
             call_executeButtonActions
               {| args_application := application props;
                  args_button := button;
                  args_executeAction := executeAction props;
                  args_focusedItemIndex := focusedItemIndex props;
                  args_item := item props;
                  args_refError := refError props;
                  args_removeApplication := removeApplication props |};
           uuid :=
             template (item props ?. Item.uuid) ++ "-"
             ++ template (application props ?. Application.uuid) ++ "-"
             ++ template_number idx ++ "-button" |}
        [ jsx_text label ] ].

Definition ApplicationFooter (props : ApplicationProps) : Js Element :=
  it ← destructure (item props);
  let applications := Item.applications it in
  let title := Item.title it in
  Icon' ← call_getIcon it;
  iconColor ← call_getIconColor it;
  let buttonsCount :=
    optional_length (application props ?. Application.buttons) ?? 0%nat in
  Ret
    (FlexContainer undefined "center" true (value "space-between")
       [ Flex "center" 1
           [ Icon Icon' (iconColor ?. accent) (2 * UNIT)%Q;
             div (1.5 * UNIT)%Q;
             Text true 4 [ jsx_text title ];
             Spacing PADDING_UNITS ];
         FlexContainer undefined "center" false undefined
           [ jsx_nodes
               (optional_imap (application props ?. Application.buttons)
                  (renderButton props buttonsCount)) ] ]).

End Component.

Arguments application {Value} _.
Arguments applicationsRef {Value} _.
Arguments executeAction {Value} _.
Arguments focusedItemIndex {Value} _.
Arguments item {Value} _.
Arguments removeApplication {Value} _.
Arguments refError {Value} _.
Arguments args_application {Value} _.
Arguments args_button {Value} _.
Arguments args_executeAction {Value} _.
Arguments args_focusedItemIndex {Value} _.
Arguments args_item {Value} _.
Arguments args_refError {Value} _.
Arguments args_removeApplication {Value} _.
Arguments Ret {Value R} r.
Arguments Throw {Value R} e.
Arguments Call_getIcon {Value R} it k.
Arguments Call_getIconColor {Value R} it k.
Arguments Call_executeButtonActions {Value R} args k.
Arguments call_executeButtonActions {Value} args.
Arguments getIcon {Value} _ _.
Arguments getIconColor {Value} _ _.
Arguments executeButtonActions {Value} _ _.
Arguments Called_getIcon {Value} it.
Arguments Called_getIconColor {Value} it.
Arguments Called_executeButtonActions {Value} args.
Arguments run {Value R} env p.
Arguments renderButton {Value} PADDING_UNITS KEY_CODE_KEY_SYMBOL_MAPPING
  props buttonsCount button idx.
Arguments ApplicationFooter {Value} UNIT PADDING_UNITS
  KEY_CODE_KEY_SYMBOL_MAPPING props.

(** ** Reading the rendered tree *)

(** A value is missing when it is [undefined] or [null]. *)
Definition missing {A} (x : Nullable A) : Prop :=
  match x with
  | value _ => False
  | undefined | null => True
  end.

(** The buttons [application?.buttons?.map] ranges over: none when the
    application or its list is missing. *)
Definition buttons_list {Value} (props : ApplicationProps Value) : list Button :=
  (application props ?. Application.buttons) ?? [].

(** The elements shown in the right-hand region: the rendered children of the
    second child of the root. *)
Definition right_region {C H} (tree : Node C H) : list (Node C H) :=
  match rendered_children tree with
  | [_; r] => rendered_children r
  | _ => []
  end.

Definition left_region {C H} (tree : Node C H) : list (Node C H) :=
  match rendered_children tree with
  | [l; _] => rendered_children l
  | _ => []
  end.

Definition as_button {C H} (n : Node C H)
    : option (KeyboardShortcutButtonProps H * list (Node C H)) :=
  match n with
  | KeyboardShortcutButton p ch => Some (p, ch)
  | _ => None
  end.

(** The button controls of the right-hand region, in order, each with its
    props and its children. *)
Definition button_controls {C H} (tree : Node C H)
    : list (KeyboardShortcutButtonProps H * list (Node C H)) :=
  flat_map (fun c => omap as_button (rendered_children c)) (right_region tree).

(** The [key] attribute of an element, as the JSX writes it. *)
Definition key_of {C H} (n : Node C H) : Nullable string :=
  match n with
  | FlexContainer k _ _ _ _ => k
  | _ => undefined
  end.

(** What React makes of a [key] attribute: an [undefined] attribute is no key,
    anything else is turned into a string by ['' + key], so that [null] and
    the string "null" give the same key. *)
Definition string_key (k : Nullable string) : option string :=
  match k with
  | undefined => None
  | null => Some "null"
  | value s => Some s
  end.

(** The key React keeps for the identity of an element among its siblings. *)
Definition list_key {C H} (n : Node C H) : option string :=
  string_key (key_of n).

(** The outcome of one render pass and the calls made during it. *)
Definition render {Value} (UNIT PADDING_UNITS : Q)
    (KEY_CODE_KEY_SYMBOL_MAPPING : gmap KeyCode string)
    (env : Collaborators Value) (props : ApplicationProps Value)
    : JsError + Element Value :=
  (run env (ApplicationFooter UNIT PADDING_UNITS KEY_CODE_KEY_SYMBOL_MAPPING props)).2.

Definition render_calls {Value} (UNIT PADDING_UNITS : Q)
    (KEY_CODE_KEY_SYMBOL_MAPPING : gmap KeyCode string)
    (env : Collaborators Value) (props : ApplicationProps Value)
    : list (Event Value) :=
  (run env (ApplicationFooter UNIT PADDING_UNITS KEY_CODE_KEY_SYMBOL_MAPPING props)).1.

(** The argument bundle the specification asks a click on [button] to pass
    on: the values of the props at render time, and the button itself. *)
Definition click_args {Value} (props : ApplicationProps Value) (button : Button)
    : ButtonActionsArgs Value :=
  {| args_application := application props;
     args_button := button;
     args_executeAction := executeAction props;
     args_focusedItemIndex := focusedItemIndex props;
     args_item := item props;
     args_refError := refError props;
     args_removeApplication := removeApplication props |}.

(** ** Props that differ in one accent colour *)

(** [button] with [display_settings.color_uuid] set to [c]; a button without
    display settings has no such field and stays as it is. *)
Definition set_color_uuid (c : Nullable string) (button : Button) : Button :=
  {| display_settings :=
       match display_settings button with
       | value _ => value {| color_uuid := c |}
       | absent => absent
       end;
     keyboard_shortcuts := keyboard_shortcuts button;
     label := label button;
     tooltip := tooltip button |}.

Definition recolor_application (idx : nat) (c : Nullable string)
    (app : Application.t) : Application.t :=
  {| Application.uuid := Application.uuid app;
     Application.buttons :=
       match Application.buttons app with
       | value bs => value (alter (set_color_uuid c) idx bs)
       | absent => absent
       end |}.

(** [props] with the accent colour of button [idx] of the application set to
    [c] and nothing else changed. *)
Definition recolor {Value} (idx : nat) (c : Nullable string)
    (props : ApplicationProps Value) : ApplicationProps Value :=
  {| application :=
       match application props with
       | value app => value (recolor_application idx c app)
       | absent => absent
       end;
     applicationsRef := applicationsRef props;
     executeAction := executeAction props;
     focusedItemIndex := focusedItemIndex props;
     item := item props;
     removeApplication := removeApplication props;
     refError := refError props |}.

(** ** Sample inputs *)

Module Sample.

(** Key codes of the Meta key and of the letter K. *)
Definition KEY_CODE_META : KeyCode := 91%N.
Definition KEY_CODE_K : KeyCode := 75%N.

Definition symbols : gmap KeyCode string :=
  {[ KEY_CODE_META := "⌘"; KEY_CODE_K := "K" ]}.

Definition run_button : Button :=
  {| display_settings := value {| color_uuid := value "blue" |};
     keyboard_shortcuts := value [ value [KEY_CODE_META; KEY_CODE_K] ];
     label := value "Run";
     tooltip := undefined |}.

Definition close_button : Button :=
  {| display_settings := undefined;
     keyboard_shortcuts := undefined;
     label := value "Close";
     tooltip := null |}.

Definition app : Application.t :=
  {| Application.uuid := value "app";
     Application.buttons := value [run_button; close_button] |}.

Definition pipelines : Item.t :=
  {| Item.applications := undefined;
     Item.title := value "Pipelines";
     Item.uuid := value "item" |}.

(** Opaque values are named by strings here. *)
Definition props : ApplicationProps string :=
  {| application := value app;
     applicationsRef := "applicationsRef";
     executeAction := "executeAction";
     focusedItemIndex := value 3%Z;
     item := value pipelines;
     removeApplication := "removeApplication";
     refError := "refError" |}.

(** No application at all. *)
Definition bare_props : ApplicationProps string :=
  {| application := undefined;
     applicationsRef := "applicationsRef";
     executeAction := "executeAction";
     focusedItemIndex := undefined;
     item := value pipelines;
     removeApplication := "removeApplication";
     refError := "refError" |}.

Definition env : Collaborators string :=
  {| getIcon := fun _ => "PipelineIcon";
     getIconColor := fun _ => value {| accent := value "blue" |};
     executeButtonActions := fun _ => "result" |}.

(** Another environment: same lookups, another action executor. *)
Definition env' : Collaborators string :=
  {| getIcon := fun _ => "PipelineIcon";
     getIconColor := fun _ => value {| accent := value "blue" |};
     executeButtonActions := fun _ => "other result" |}.

Definition UNIT : Q := 8.
Definition PADDING_UNITS : Q := 2.

End Sample.

(** ** What the footer leaves unread or undisplayed *)

(** [props] with another [applicationsRef] and nothing else changed. *)
Definition with_applicationsRef {Value} (ref : Value)
    (props : ApplicationProps Value) : ApplicationProps Value :=
  {| application := application props;
     applicationsRef := ref;
     executeAction := executeAction props;
     focusedItemIndex := focusedItemIndex props;
     item := item props;
     removeApplication := removeApplication props;
     refError := refError props |}.

(** The fields of a button that reach an attribute or a text of the tree. *)
Definition shown_fields (button : Button)
    : Nullable string * Nullable (list (Nullable (list KeyCode))) :=
  (label button, keyboard_shortcuts button).

(** The [uuid] props of the button controls, in order. *)
Definition control_uuids {C H} (tree : Node C H) : list string :=
  (fun ctl => uuid ctl.1) <$> button_controls tree.

Module MoreSamples.

(** The sample props with other callbacks, another focused index, a tooltip
    on the first button and no display settings. *)
Definition run_button : Button :=
  {| display_settings := null;
     keyboard_shortcuts := keyboard_shortcuts Sample.run_button;
     label := label Sample.run_button;
     tooltip := value "Run the pipeline" |}.

Definition app : Application.t :=
  {| Application.uuid := value "app";
     Application.buttons := value [run_button; Sample.close_button] |}.

Definition props : ApplicationProps string :=
  {| application := value app;
     applicationsRef := "otherApplicationsRef";
     executeAction := "otherExecuteAction";
     focusedItemIndex := undefined;
     item := value Sample.pipelines;
     removeApplication := "otherRemoveApplication";
     refError := "otherRefError" |}.

(** Props whose item is [null]. *)
Definition props_without_item : ApplicationProps string :=
  {| application := value Sample.app;
     applicationsRef := "applicationsRef";
     executeAction := "executeAction";
     focusedItemIndex := value 3%Z;
     item := null;
     removeApplication := "removeApplication";
     refError := "refError" |}.

End MoreSamples.

(** * Properties *)

(** ** Lists built by [imap] *)

Lemma flat_map_imap_lookup {A B D} (f : nat -> A -> B) (g : B -> list D)
    (l : list A) (i : nat) :
  (forall j a, length (g (f j a)) = 1) ->
  flat_map g (imap f l) !! i = l !! i ≫= (fun a => head (g (f i a))).
Proof.
  revert f i. induction l as [|a l IH]; intros f i Hone; [done|].
  cbn [imap flat_map].
  specialize (Hone 0 a) as Ha.
  destruct (g (f 0 a)) as [|d [|? ?]] eqn:Hg; simplify_eq/=.
  destruct i as [|i]; simpl; [by rewrite Hg|].
  rewrite IH; [done|]. intros j b. apply (Hone (S j)).
Qed.

Lemma flat_map_imap_length {A B D} (f : nat -> A -> B) (g : B -> list D)
    (l : list A) :
  (forall j a, length (g (f j a)) = 1) ->
  length (flat_map g (imap f l)) = length l.
Proof.
  revert f. induction l as [|a l IH]; intros f Hone; [done|].
  cbn [imap flat_map]. rewrite length_app, Hone, IH; [done|].
  intros j b. apply (Hone (S j)).
Qed.

Lemma flat_map_imap_id {A B} (f : nat -> A -> B) (g : B -> list B) (l : list A) :
  (forall j a, g (f j a) = [f j a]) ->
  flat_map g (imap f l) = imap f l.
Proof.
  revert f. induction l as [|a l IH]; intros f Hone; [done|].
  cbn [imap flat_map]. rewrite Hone, IH; [done|].
  intros j b. apply (Hone (S j)).
Qed.

Section Properties.

Context {Value : Type}.
Variables UNIT PADDING_UNITS : Q.
Variable KEY_CODE_KEY_SYMBOL_MAPPING : gmap KeyCode string.

#[local] Abbreviation renderButton' :=
  (renderButton PADDING_UNITS KEY_CODE_KEY_SYMBOL_MAPPING).
#[local] Abbreviation ApplicationFooter' :=
  (ApplicationFooter UNIT PADDING_UNITS KEY_CODE_KEY_SYMBOL_MAPPING).
#[local] Abbreviation render' :=
  (render UNIT PADDING_UNITS KEY_CODE_KEY_SYMBOL_MAPPING).
#[local] Abbreviation render_calls' :=
  (render_calls UNIT PADDING_UNITS KEY_CODE_KEY_SYMBOL_MAPPING).

Implicit Types (env : Collaborators Value) (props : ApplicationProps Value).
Implicit Types (button : Button) (idx : nat).

(** ** One render pass, step by step *)

Lemma buttons_list_length props :
  optional_length (application props ?. Application.buttons) ?? 0%nat
  = length (buttons_list props).
Proof.
  unfold buttons_list.
  destruct (application props) as [| |app]; simpl; [done..|].
  by destruct (Application.buttons app).
Qed.

Lemma rendered_renderButton props n button idx :
  rendered (renderButton' props n button idx) = [renderButton' props n button idx].
Proof. reflexivity. Qed.

Lemma controls_renderButton_length props n button idx :
  length (omap as_button (rendered_children (renderButton' props n button idx)))
  = 1.
Proof. by destruct idx. Qed.

Lemma render_of_run env props calls out :
  run env (ApplicationFooter' props) = (calls, out) ->
  render' env props = out /\ render_calls' env props = calls.
Proof. unfold render, render_calls. by intros ->. Qed.

(** With an item, a render pass looks the icon and its colour up, throws
    nothing, and fills the right-hand region by mapping [renderButton] over
    the buttons. *)
Lemma run_ApplicationFooter env props it :
  item props = value it ->
  exists tree,
    run env (ApplicationFooter' props)
    = ([Called_getIcon it; Called_getIconColor it], inr tree)
    /\ left_region tree
       = Icon (getIcon env it) (getIconColor env it ?. accent) (2 * UNIT)%Q
         :: div (1.5 * UNIT)%Q
         :: Text true 4 [jsx_text (Item.title it)]
         :: [Spacing PADDING_UNITS]
    /\ right_region tree
       = imap (fun idx button =>
                 renderButton' props (length (buttons_list props)) button idx)
              (buttons_list props).
Proof.
  intros Hit. unfold ApplicationFooter. rewrite Hit. simpl.
  eexists. split; [reflexivity|]. split; [reflexivity|].
  rewrite buttons_list_length. unfold right_region, buttons_list. simpl.
  destruct (application props) as [| |app]; simpl; [done..|].
  destruct (Application.buttons app) as [| |bs]; simpl; [done..|].
  unfold rendered_children. cbn [children_of flat_map]. rewrite app_nil_r.
  apply (flat_map_imap_id _ rendered). intros. apply rendered_renderButton.
Qed.

(** The same pass, seen from the button controls: there is one per button,
    and the control at [idx] is the one [renderButton] builds for the button
    at [idx]. *)
Lemma render_controls env props it :
  item props = value it ->
  exists tree,
    run env (ApplicationFooter' props)
    = ([Called_getIcon it; Called_getIconColor it], inr tree)
    /\ length (right_region tree) = length (buttons_list props)
    /\ length (button_controls tree) = length (buttons_list props)
    /\ forall idx button,
         buttons_list props !! idx = Some button ->
         exists p,
           renderButton' props (length (buttons_list props)) button idx
           = FlexContainer (label button) "center" false undefined
               [ (if (1 <=? idx)%nat then Spacing PADDING_UNITS else jsx_false);
                 KeyboardShortcutButton p [jsx_text (label button)] ]
           /\ right_region tree !! idx
              = Some (renderButton' props (length (buttons_list props)) button idx)
           /\ button_controls tree !! idx
              = Some (p, [jsx_text (label button)])
           /\ default p
              = (idx =? 0)%nat && (2 <=? length (buttons_list props))%nat
           /\ noBackground p
              = (idx =? 0)%nat && (2 <=? length (buttons_list props))%nat
           /\ onClick p = call_executeButtonActions (click_args props button)
           /\ addPlusSignBetweenKeys p = true
           /\ keyTextGroups p
              = optional_map (keyboard_shortcuts button)
                  (fun arr => optional_map arr (index KEY_CODE_KEY_SYMBOL_MAPPING)).
Proof.
  intros Hit. destruct (run_ApplicationFooter env props it Hit)
    as (tree & Hrun & _ & Hright).
  exists tree. split; [done|].
  unfold button_controls. rewrite Hright.
  split; [by rewrite length_imap|].
  split; [apply flat_map_imap_length; intros; apply controls_renderButton_length|].
  intros idx button Hb. eexists. split; [reflexivity|].
  split; [by rewrite list_lookup_imap, Hb|].
  rewrite flat_map_imap_lookup by (intros; apply controls_renderButton_length).
  rewrite Hb. split; [by destruct idx|]. done.
Qed.


Lemma buttons_list_value props app bs :
  application props = value app ->
  Application.buttons app = value bs ->
  buttons_list props = bs.
Proof. unfold buttons_list. intros -> Hbs. simpl. by rewrite Hbs. Qed.

(** C1: in a non-empty buttons list, the control at index [idx] has the
    default, no-background styling exactly when [idx] is 0 and there are at
    least 2 buttons; so a sole button has standard styling, and with 2 or more
    buttons the one at index 0, and only that one, is de-emphasized. *)
Theorem first_button_default_iff env props it app bs idx :
  item props = value it ->
  application props = value app ->
  Application.buttons app = value bs ->
  idx < length bs ->
  exists tree ctl,
    render' env props = inr tree
    /\ button_controls tree !! idx = Some ctl
    /\ (default ctl.1 = true <-> idx = 0 /\ 2 <= length bs)
    /\ (noBackground ctl.1 = true <-> idx = 0 /\ 2 <= length bs)
    /\ (length bs = 1 -> default ctl.1 = false /\ noBackground ctl.1 = false).
Proof.
  intros Hit Happ Hbs Hidx.
  destruct (render_controls env props it Hit) as (tree & Hrun & _ & _ & Hctl).
  rewrite (buttons_list_value props app bs Happ Hbs) in Hctl.
  destruct (lookup_lt_is_Some_2 bs idx Hidx) as [button Hb].
  destruct (Hctl idx button Hb) as (p & _ & _ & Hlook & Hdef & Hbg & _).
  exists tree, (p, [jsx_text (label button)]).
  split; [by apply render_of_run in Hrun as [? _]|]. split; [done|].
  cbn [fst]. rewrite Hdef, Hbg.
  rewrite andb_true_iff, Nat.eqb_eq, Nat.leb_le.
  split; [done|]. split; [done|].
  intros Hone. rewrite Hone. by rewrite andb_false_r.
Qed.


(** A control of the rendered tree comes from the button at its index. *)
Lemma control_button props (tree : Element Value) idx
    (ctl : KeyboardShortcutButtonProps (Handler Value) * list (Element Value)) :
  length (button_controls tree) = length (buttons_list props) ->
  button_controls tree !! idx = Some ctl ->
  exists button, buttons_list props !! idx = Some button.
Proof.
  intros Hlen Hctl. apply lookup_lt_is_Some_2.
  rewrite <- Hlen. by apply lookup_lt_Some in Hctl.
Qed.

(** C2: a click on a rendered button calls [executeButtonActions] exactly
    once, with the application, button, executeAction, focusedItemIndex, item,
    refError and removeApplication of the render pass, and hands its result
    back untouched. *)
Theorem click_calls_executeButtonActions_once env props it :
  item props = value it ->
  exists tree,
    render' env props = inr tree
    /\ length (button_controls tree) = length (buttons_list props)
    /\ forall idx ctl,
         button_controls tree !! idx = Some ctl ->
         exists button,
           buttons_list props !! idx = Some button
           /\ forall env_click,
                run env_click (onClick ctl.1)
                = ([Called_executeButtonActions (click_args props button)],
                   inr (executeButtonActions env_click (click_args props button))).
Proof.
  intros Hit.
  destruct (render_controls env props it Hit) as (tree & Hrun & _ & Hlen & Hctl).
  exists tree. split; [by apply render_of_run in Hrun as [? _]|]. split; [done|].
  intros idx ctl Hlook.
  destruct (control_button props tree idx ctl Hlen Hlook) as [button Hb].
  exists button. split; [done|].
  destruct (Hctl idx button Hb) as (p & _ & _ & Hlook' & _ & _ & Hclick & _).
  unfold Element, Handler in *. rewrite Hlook in Hlook'.
  injection Hlook' as ->. cbn [fst].
  by rewrite Hclick.
Qed.

(** C9: every rendered button gets the same value for [default] and for
    [noBackground], the value of [idx === 0 && buttonsCount >= 2]. *)
Theorem default_equals_noBackground env props it :
  item props = value it ->
  exists tree,
    render' env props = inr tree
    /\ length (button_controls tree) = length (buttons_list props)
    /\ forall idx ctl,
         button_controls tree !! idx = Some ctl ->
         default ctl.1 = noBackground ctl.1
         /\ default ctl.1
            = (idx =? 0)%nat && (2 <=? length (buttons_list props))%nat.
Proof.
  intros Hit.
  destruct (render_controls env props it Hit) as (tree & Hrun & _ & Hlen & Hctl).
  exists tree. split; [by apply render_of_run in Hrun as [? _]|]. split; [done|].
  intros idx ctl Hlook.
  destruct (control_button props tree idx ctl Hlen Hlook) as [button Hb].
  destruct (Hctl idx button Hb) as (p & _ & _ & Hlook' & Hdef & Hbg & _).
  unfold Element, Handler in *. rewrite Hlook in Hlook'.
  injection Hlook' as ->. cbn [fst].
  by rewrite Hdef, Hbg.
Qed.

(** C6: inside the container of a rendered button, a spacing element comes
    right before the button when [idx >= 1], and the button stands alone when
    [idx] is 0. *)
Theorem spacing_precedes_later_buttons env props it :
  item props = value it ->
  exists tree,
    render' env props = inr tree
    /\ length (right_region tree) = length (buttons_list props)
    /\ forall idx container,
         right_region tree !! idx = Some container ->
         exists p ch,
           button_controls tree !! idx = Some (p, ch)
           /\ (1 <= idx ->
               rendered_children container
               = [Spacing PADDING_UNITS; KeyboardShortcutButton p ch])
           /\ (idx = 0 ->
               rendered_children container = [KeyboardShortcutButton p ch]).
Proof.
  intros Hit.
  destruct (render_controls env props it Hit) as (tree & Hrun & Hlen & _ & Hctl).
  exists tree. split; [by apply render_of_run in Hrun as [? _]|]. split; [done|].
  intros idx container Hlook.
  assert (exists button, buttons_list props !! idx = Some button) as [button Hb].
  { apply lookup_lt_is_Some_2. rewrite <- Hlen. by apply lookup_lt_Some in Hlook. }
  destruct (Hctl idx button Hb) as (p & Hp & Hright & Hlook' & _).
  unfold Element, Handler in *. rewrite Hlook in Hright.
  injection Hright as ->. rewrite Hp.
  exists p, [jsx_text (label button)]. split; [done|].
  split; [intros Hidx | intros ->]; [|done].
  by destruct idx; [lia|].
Qed.

(** The reason labels have to be present for the keys to tell them apart:
    a [null] label and the label "null" are different labels with one key. *)
Lemma string_key_null : string_key null = string_key (value "null").
Proof. reflexivity. Qed.

(** C7: the container of each rendered button is keyed by the button's
    label: its [key] attribute is the label, and for a label that is present
    the key React keeps for list identity is that very string.  When the
    labels of the list are present, the keys of one render pass are pairwise
    distinct exactly when the labels are; an [undefined] label gives no key
    and a [null] label the key "null". *)
Theorem buttons_keyed_by_label env props it :
  item props = value it ->
  exists tree,
    render' env props = inr tree
    /\ length (right_region tree) = length (buttons_list props)
    /\ (forall idx button,
          buttons_list props !! idx = Some button ->
          exists container,
            right_region tree !! idx = Some container
            /\ key_of container = label button
            /\ list_key container = string_key (label button)
            /\ (forall s, label button = value s -> list_key container = Some s))
    /\ ((forall button,
           button ∈ buttons_list props -> exists s, label button = value s) ->
        (NoDup (label <$> buttons_list props)
         <-> NoDup (list_key <$> right_region tree))).
Proof.
  intros Hit.
  destruct (run_ApplicationFooter env props it Hit) as (tree & Hrun & _ & Hright).
  exists tree. split; [by apply render_of_run in Hrun as [? _]|].
  split; [by rewrite Hright, length_imap|]. split.
  - intros idx button Hb. eexists.
    split; [by rewrite Hright, list_lookup_imap, Hb|].
    split; [done|]. split; [done|]. intros s Hs.
    unfold list_key. cbn [key_of renderButton]. by rewrite Hs.
  - intros Hpresent.
    assert (list_key <$> right_region tree
            = string_key <$> (label <$> buttons_list props)) as ->.
    { rewrite Hright, fmap_imap, <- list_fmap_compose.
      rewrite <- (imap_const (string_key ∘ label)). by apply imap_ext. }
    split; [|apply NoDup_fmap_1].
    apply NoDup_fmap_2_strong. intros k1 k2 Hk1 Hk2 Hsame.
    apply list_elem_of_fmap in Hk1 as (b1 & -> & Hb1).
    apply list_elem_of_fmap in Hk2 as (b2 & -> & Hb2).
    destruct (Hpresent b1 Hb1) as [s1 Hs1], (Hpresent b2 Hb2) as [s2 Hs2].
    rewrite Hs1, Hs2 in *. by injection Hsame as ->.
Qed.

(** C5: the right-hand region has no button control when the application is
    missing, when its buttons list is missing, and when the list is empty;
    otherwise it has one control per button, in the order of the list. *)
Theorem one_control_per_button env props it :
  item props = value it ->
  exists tree,
    render' env props = inr tree
    /\ (missing (application props ?. Application.buttons) ->
        right_region tree = [] /\ button_controls tree = [])
    /\ (application props ?. Application.buttons = value [] ->
        right_region tree = [] /\ button_controls tree = [])
    /\ (forall bs,
          application props ?. Application.buttons = value bs ->
          length (right_region tree) = length bs
          /\ length (button_controls tree) = length bs
          /\ forall idx button,
               bs !! idx = Some button ->
               exists p,
                 button_controls tree !! idx = Some (p, [jsx_text (label button)])
                 /\ onClick p = call_executeButtonActions (click_args props button)).
Proof.
  intros Hit.
  destruct (render_controls env props it Hit) as (tree & Hrun & Hlen & Hlen' & Hctl).
  exists tree. split; [by apply render_of_run in Hrun as [? _]|].
  unfold buttons_list in *.
  destruct (application props ?. Application.buttons) as [| |bs]; simpl in *.
  - apply nil_length_inv in Hlen, Hlen'. by repeat split.
  - apply nil_length_inv in Hlen, Hlen'. by repeat split.
  - split; [done|]. split.
    + intros [= ->]. by apply nil_length_inv in Hlen, Hlen'.
    + intros ? [= <-]. split; [done|]. split; [done|].
      intros idx button Hb.
      destruct (Hctl idx button Hb) as (p & _ & _ & Hlook & _ & _ & Hclick & _).
      by exists p.
Qed.


(** ** Key texts *)

Lemma index_Some (code : KeyCode) (symbol : string) :
  KEY_CODE_KEY_SYMBOL_MAPPING !! code = Some symbol ->
  index KEY_CODE_KEY_SYMBOL_MAPPING code = value symbol.
Proof. unfold index. by intros ->. Qed.

Lemma index_None (code : KeyCode) :
  KEY_CODE_KEY_SYMBOL_MAPPING !! code = None ->
  index KEY_CODE_KEY_SYMBOL_MAPPING code = undefined.
Proof. unfold index. by intros ->. Qed.

(** C4: the key texts of a button are its key-code sequences mapped one by
    one through the symbol table, groups and keys in their order, and the
    button is asked to join the keys of a group with a sign; a code the table
    lacks reads as [undefined].  For [[a, b]] with [a] shown as [sa] and [b]
    as [sb], the one group is [sa] then [sb]. *)
Theorem key_texts_follow_table env props it idx button groups :
  item props = value it ->
  buttons_list props !! idx = Some button ->
  keyboard_shortcuts button = value groups ->
  exists tree ctl texts,
    render' env props = inr tree
    /\ button_controls tree !! idx = Some ctl
    /\ addPlusSignBetweenKeys ctl.1 = true
    /\ keyTextGroups ctl.1 = value texts
    /\ length texts = length groups
    /\ (forall g arr,
          groups !! g = Some (value arr) ->
          exists row,
            texts !! g = Some (value row)
            /\ length row = length arr
            /\ forall j code,
                 arr !! j = Some code ->
                 row !! j = Some (index KEY_CODE_KEY_SYMBOL_MAPPING code)
                 /\ (forall symbol,
                       KEY_CODE_KEY_SYMBOL_MAPPING !! code = Some symbol ->
                       row !! j = Some (value symbol))
                 /\ (KEY_CODE_KEY_SYMBOL_MAPPING !! code = None ->
                     row !! j = Some undefined))
    /\ (forall a b sa sb,
          groups = [value [a; b]] ->
          KEY_CODE_KEY_SYMBOL_MAPPING !! a = Some sa ->
          KEY_CODE_KEY_SYMBOL_MAPPING !! b = Some sb ->
          texts = [value [value sa; value sb]]).
Proof.
  intros Hit Hb Hgroups.
  destruct (render_controls env props it Hit) as (tree & Hrun & _ & _ & Hctl).
  destruct (Hctl idx button Hb) as (p & _ & _ & Hlook & _ & _ & _ & Hplus & Htexts).
  rewrite Hgroups in Htexts. simpl in Htexts.
  eexists tree, (p, _), _.
  split; [by apply render_of_run in Hrun as [? _]|].
  split; [done|]. split; [done|]. split; [exact Htexts|].
  split; [by rewrite length_fmap|]. split.
  - intros g arr Hg. exists (index KEY_CODE_KEY_SYMBOL_MAPPING <$> arr).
    split; [by rewrite list_lookup_fmap, Hg|].
    split; [by rewrite length_fmap|].
    intros j code Hj. rewrite list_lookup_fmap, Hj. simpl.
    split; [done|]. split.
    + intros symbol Hs. by rewrite (index_Some code symbol Hs).
    + intros Hs. by rewrite (index_None code Hs).
  - intros a b sa sb -> Ha Hb'. simpl.
    by rewrite (index_Some a sa Ha), (index_Some b sb Hb').
Qed.

(** ** Missing data *)

(** C3: with an item, a render pass never throws, whatever optional data is
    missing.  A missing application or buttons list gives no button; a missing
    title or label gives no text; missing keyboard shortcuts give no key
    texts, and a missing sequence among them gives a missing group; missing
    display settings change nothing that is displayed. *)
Theorem missing_data_never_throws env props it :
  item props = value it ->
  exists tree,
    run env (ApplicationFooter' props)
    = ([Called_getIcon it; Called_getIconColor it], inr tree)
    /\ (missing (application props) -> button_controls tree = [])
    /\ (forall app,
          application props = value app ->
          missing (Application.buttons app) ->
          button_controls tree = [])
    /\ (exists ch,
          left_region tree !! 2 = Some (Text true 4 ch)
          /\ (missing (Item.title it) -> flat_map rendered ch = []))
    /\ length (button_controls tree) = length (buttons_list props)
    /\ forall idx button,
         buttons_list props !! idx = Some button ->
         exists p ch,
           button_controls tree !! idx = Some (p, ch)
           /\ (missing (label button) -> flat_map rendered ch = [])
           /\ (missing (keyboard_shortcuts button) -> keyTextGroups p = undefined)
           /\ (forall groups g absent,
                 keyboard_shortcuts button = value groups ->
                 groups !! g = Some absent ->
                 missing absent ->
                 exists texts,
                   keyTextGroups p = value texts
                   /\ texts !! g = Some undefined)
           /\ (forall settings,
                 displayed
                   (renderButton' props (length (buttons_list props)) button idx)
                 = displayed
                     (renderButton' props (length (buttons_list props))
                        {| display_settings := settings;
                           keyboard_shortcuts := keyboard_shortcuts button;
                           label := label button;
                           tooltip := tooltip button |} idx)).
Proof.
  intros Hit.
  destruct (run_ApplicationFooter env props it Hit) as (tree & Hrun & Hleft & _).
  destruct (render_controls env props it Hit) as (tree' & Hrun' & _ & Hlen & Hctl).
  rewrite Hrun in Hrun'. injection Hrun' as <-.
  exists tree. split; [done|].
  split; [|split; [|split; [|split; [done|]]]].
  - intros Hmiss. apply nil_length_inv. rewrite Hlen. unfold buttons_list.
    by destruct (application props).
  - intros app Happ Hmiss. apply nil_length_inv. rewrite Hlen.
    unfold buttons_list. rewrite Happ. simpl.
    by destruct (Application.buttons app).
  - eexists. rewrite Hleft. split; [reflexivity|].
    intros Hmiss. by destruct (Item.title it).
  - intros idx button Hb.
    destruct (Hctl idx button Hb) as (p & _ & _ & Hlook & _ & _ & _ & _ & Htexts).
    exists p, [jsx_text (label button)].
    split; [done|]. split; [|split; [|split]].
    + intros Hmiss. by destruct (label button).
    + intros Hmiss. rewrite Htexts. by destruct (keyboard_shortcuts button).
    + intros groups g absent Hgroups Hg Hmiss.
      rewrite Htexts, Hgroups. simpl. eexists. split; [reflexivity|].
      rewrite list_lookup_fmap, Hg. by destruct absent.
    + intros settings. by destruct idx.
Qed.


(** ** Purity *)

Lemma renderButton_table_ext (symbols' : gmap KeyCode string) props n button idx :
  (forall groups arr code,
     keyboard_shortcuts button = value groups ->
     value arr ∈ groups ->
     code ∈ arr ->
     KEY_CODE_KEY_SYMBOL_MAPPING !! code = symbols' !! code) ->
  renderButton' props n button idx
  = renderButton PADDING_UNITS symbols' props n button idx.
Proof.
  intros Hagree. unfold renderButton.
  assert (optional_map (keyboard_shortcuts button)
            (fun arr => optional_map arr
               (fun keyCode => index KEY_CODE_KEY_SYMBOL_MAPPING keyCode))
          = optional_map (keyboard_shortcuts button)
              (fun arr => optional_map arr
                   (fun keyCode => index symbols' keyCode))) as ->; [|done].
  destruct (keyboard_shortcuts button) as [| |groups]; [done..|].
  simpl. f_equal. apply list_fmap_ext. intros g [| |arr] Hg; [done..|].
  simpl. f_equal. apply list_fmap_ext. intros j code Hj.
  unfold index. rewrite (Hagree groups arr code); [done|done|..].
  - by apply list_elem_of_lookup_2 with g.
  - by apply list_elem_of_lookup_2 with j.
Qed.

(** C8: a render pass is a function of the props and of what the icon, colour
    and symbol-table lookups answer: two passes over the same props, with
    collaborators that agree on those answers, give the same outcome and make
    the same calls; and no pass calls [executeButtonActions], the click
    handlers are only put in the tree. *)
Theorem render_is_pure env1 env2 (symbols' : gmap KeyCode string) props :
  (forall it,
     item props = value it ->
     getIcon env1 it = getIcon env2 it
     /\ getIconColor env1 it = getIconColor env2 it) ->
  (forall button groups arr code,
     button ∈ buttons_list props ->
     keyboard_shortcuts button = value groups ->
     value arr ∈ groups ->
     code ∈ arr ->
     KEY_CODE_KEY_SYMBOL_MAPPING !! code = symbols' !! code) ->
  render' env1 props = render UNIT PADDING_UNITS symbols' env2 props
  /\ render_calls' env1 props
     = render_calls UNIT PADDING_UNITS symbols' env2 props
  /\ (forall args, Called_executeButtonActions args ∉ render_calls' env1 props)
  /\ (forall it, item props = value it ->
        render_calls' env1 props = [Called_getIcon it; Called_getIconColor it]).
Proof.
  intros Hlookups Htable. unfold render, render_calls, ApplicationFooter.
  destruct (item props) as [| |it] eqn:Hit; simpl.
  - repeat split; [intros; apply not_elem_of_nil | done].
  - repeat split; [intros; apply not_elem_of_nil | done].
  - destruct (Hlookups it eq_refl) as [-> ->].
    split; [|split; [done|split; [|by intros ? [= ->]]]].
    + do 5 f_equal. unfold buttons_list in Htable.
      destruct (application props ?. Application.buttons) as [| |bs]; [done..|].
      simpl in *. do 2 f_equal. apply imap_ext. intros idx button Hb.
      apply renderButton_table_ext. intros groups arr code.
      apply Htable. by apply list_elem_of_lookup_2 with idx.
    + intros args Hin.
      repeat (apply elem_of_cons in Hin as [Hin|Hin]; [discriminate|]).
      by apply elem_of_nil in Hin.
Qed.


(** ** Accent colours *)

Lemma displayed_renderButton_recolor props n button idx i c :
  displayed (renderButton' (recolor i c props) n (set_color_uuid c button) idx)
  = displayed (renderButton' props n button idx)
  /\ displayed (renderButton' (recolor i c props) n button idx)
     = displayed (renderButton' props n button idx).
Proof.
  unfold displayed, renderButton. cbn [item recolor application].
  destruct (application props) as [| |app]; by destruct idx.
Qed.

Lemma buttons_list_recolor props i c :
  buttons_list (recolor i c props)
  = alter (set_color_uuid c) i (buttons_list props).
Proof.
  unfold buttons_list, recolor. cbn [application].
  destruct (application props) as [| |app]; [done..|]. simpl.
  by destruct (Application.buttons app).
Qed.

Lemma displayed_buttons_recolor props i c :
  displayed
    <$> imap (fun idx button =>
                renderButton' (recolor i c props)
                  (length (buttons_list (recolor i c props))) button idx)
             (buttons_list (recolor i c props))
  = displayed
      <$> imap (fun idx button =>
                  renderButton' props (length (buttons_list props)) button idx)
               (buttons_list props).
Proof.
  rewrite buttons_list_recolor, length_alter.
  apply list_eq. intros idx.
  rewrite !list_lookup_fmap, !list_lookup_imap.
  destruct (decide (i = idx)) as [->|Hne].
  - rewrite list_lookup_alter_eq.
    destruct (buttons_list props !! idx) as [button|]; [|done]. simpl.
    f_equal. apply displayed_renderButton_recolor.
  - rewrite list_lookup_alter_ne by done.
    destruct (buttons_list props !! idx) as [button|]; [|done]. simpl.
    f_equal. apply displayed_renderButton_recolor.
Qed.

(** C10, as amended: what is displayed does not depend on any button's
    accent colour.  Two passes over props that differ only in the
    [color_uuid] of one button give trees that are equal once the click
    handlers are left out, and make the same calls. *)
Theorem displayed_tree_ignores_color_uuid env props idx c :
  sum_map id displayed (render' env (recolor idx c props))
  = sum_map id displayed (render' env props)
  /\ render_calls' env (recolor idx c props) = render_calls' env props.
Proof.
  pose proof (displayed_buttons_recolor props idx c) as Hbuttons.
  unfold render, render_calls, ApplicationFooter.
  rewrite !buttons_list_length. cbn [item recolor].
  destruct (item props) as [| |it]; [done..|].
  split; [|done].
  unfold buttons_list in *. cbn [application recolor] in *.
  destruct (application props) as [| |app]; [done..|].
  cbn [optional_chain recolor_application Application.buttons] in *.
  destruct (Application.buttons app) as [| |bs]; [done..|].
  unfold displayed in *. simpl. do 7 f_equal. exact Hbuttons.
Qed.


(** ** The required item *)

(** The item is read without a guard: a pass over props without one throws
    before it calls anything. *)
Lemma ApplicationFooter_without_item env props :
  missing (item props) ->
  exists e, run env (ApplicationFooter' props) = ([], inl e).
Proof.
  unfold ApplicationFooter. destruct (item props); [by eexists..|done].
Qed.

End Properties.

(** * The properties at the sample inputs *)

Lemma first_button_default_iff_witness :
  exists tree ctl,
    render Sample.UNIT Sample.PADDING_UNITS Sample.symbols Sample.env Sample.props
    = inr tree
    /\ button_controls tree !! 0 = Some ctl
    /\ (default ctl.1 = true
        <-> 0 = 0 /\ 2 <= length [Sample.run_button; Sample.close_button])
    /\ (noBackground ctl.1 = true
        <-> 0 = 0 /\ 2 <= length [Sample.run_button; Sample.close_button])
    /\ (length [Sample.run_button; Sample.close_button] = 1 ->
        default ctl.1 = false /\ noBackground ctl.1 = false).
Proof.
  apply (first_button_default_iff Sample.UNIT Sample.PADDING_UNITS
           Sample.symbols Sample.env Sample.props Sample.pipelines Sample.app
           [Sample.run_button; Sample.close_button] 0);
    [reflexivity | reflexivity | reflexivity | simpl; lia].
Defined.

Lemma click_calls_executeButtonActions_once_witness :
  exists tree,
    render Sample.UNIT Sample.PADDING_UNITS Sample.symbols Sample.env Sample.props
    = inr tree
    /\ length (button_controls tree) = length (buttons_list Sample.props)
    /\ forall idx ctl,
         button_controls tree !! idx = Some ctl ->
         exists button,
           buttons_list Sample.props !! idx = Some button
           /\ forall env_click,
                run env_click (onClick ctl.1)
                = ([Called_executeButtonActions (click_args Sample.props button)],
                   inr (executeButtonActions env_click
                          (click_args Sample.props button))).
Proof.
  apply (click_calls_executeButtonActions_once Sample.UNIT Sample.PADDING_UNITS
           Sample.symbols Sample.env Sample.props Sample.pipelines).
  reflexivity.
Defined.

Lemma missing_data_never_throws_witness :
  exists tree,
    run Sample.env
      (ApplicationFooter Sample.UNIT Sample.PADDING_UNITS Sample.symbols
         Sample.bare_props)
    = ([Called_getIcon Sample.pipelines; Called_getIconColor Sample.pipelines],
       inr tree)
    /\ button_controls tree = [].
Proof.
  destruct (missing_data_never_throws Sample.UNIT Sample.PADDING_UNITS
              Sample.symbols Sample.env Sample.bare_props Sample.pipelines
              eq_refl) as (tree & Hrun & Hnone & _).
  exists tree. split; [exact Hrun | exact (Hnone I)].
Defined.

Lemma key_texts_follow_table_witness :
  exists tree ctl texts,
    render Sample.UNIT Sample.PADDING_UNITS Sample.symbols Sample.env Sample.props
    = inr tree
    /\ button_controls tree !! 0 = Some ctl
    /\ addPlusSignBetweenKeys ctl.1 = true
    /\ keyTextGroups ctl.1 = value texts
    /\ texts = [value [value "⌘"; value "K"]].
Proof.
  destruct (key_texts_follow_table Sample.UNIT Sample.PADDING_UNITS
              Sample.symbols Sample.env Sample.props Sample.pipelines 0
              Sample.run_button
              [value [Sample.KEY_CODE_META; Sample.KEY_CODE_K]]
              eq_refl eq_refl eq_refl)
    as (tree & ctl & texts & Hrender & Hctl & Hplus & Htexts & _ & _ & Hexample).
  exists tree, ctl, texts. repeat split; try assumption.
  apply (Hexample Sample.KEY_CODE_META Sample.KEY_CODE_K); reflexivity.
Defined.

Lemma one_control_per_button_witness :
  exists tree,
    render Sample.UNIT Sample.PADDING_UNITS Sample.symbols Sample.env Sample.props
    = inr tree
    /\ length (button_controls tree) = 2.
Proof.
  destruct (one_control_per_button Sample.UNIT Sample.PADDING_UNITS
              Sample.symbols Sample.env Sample.props Sample.pipelines eq_refl)
    as (tree & Hrender & _ & _ & Hall).
  exists tree. split; [exact Hrender|].
  exact (proj1 (proj2 (Hall [Sample.run_button; Sample.close_button] eq_refl))).
Defined.

Lemma spacing_precedes_later_buttons_witness :
  exists tree,
    render Sample.UNIT Sample.PADDING_UNITS Sample.symbols Sample.env Sample.props
    = inr tree
    /\ length (right_region tree) = 2.
Proof.
  destruct (spacing_precedes_later_buttons Sample.UNIT Sample.PADDING_UNITS
              Sample.symbols Sample.env Sample.props Sample.pipelines eq_refl)
    as (tree & Hrender & Hlen & _).
  exists tree. split; [exact Hrender | exact Hlen].
Defined.

Lemma buttons_keyed_by_label_witness :
  exists tree container,
    render Sample.UNIT Sample.PADDING_UNITS Sample.symbols Sample.env Sample.props
    = inr tree
    /\ right_region tree !! 1 = Some container
    /\ list_key container = Some "Close".
Proof.
  destruct (buttons_keyed_by_label Sample.UNIT Sample.PADDING_UNITS
              Sample.symbols Sample.env Sample.props Sample.pipelines eq_refl)
    as (tree & Hrender & _ & Hkeys & _).
  destruct (Hkeys 1 Sample.close_button eq_refl)
    as (container & Hat & _ & _ & Hkey).
  exists tree, container. split; [exact Hrender|]. split; [exact Hat|].
  apply Hkey. reflexivity.
Defined.

Lemma render_is_pure_witness :
  render Sample.UNIT Sample.PADDING_UNITS Sample.symbols Sample.env Sample.props
  = render Sample.UNIT Sample.PADDING_UNITS Sample.symbols Sample.env' Sample.props
  /\ forall args,
       Called_executeButtonActions args
       ∉ render_calls Sample.UNIT Sample.PADDING_UNITS Sample.symbols Sample.env
           Sample.props.
Proof.
  destruct (render_is_pure Sample.UNIT Sample.PADDING_UNITS Sample.symbols
              Sample.env Sample.env' Sample.symbols Sample.props)
    as (Hsame & _ & Hnone & _).
  - intros it _. split; reflexivity.
  - reflexivity.
  - split; [exact Hsame | exact Hnone].
Defined.

Lemma default_equals_noBackground_witness :
  exists tree,
    render Sample.UNIT Sample.PADDING_UNITS Sample.symbols Sample.env Sample.props
    = inr tree
    /\ length (button_controls tree) = 2.
Proof.
  destruct (default_equals_noBackground Sample.UNIT Sample.PADDING_UNITS
              Sample.symbols Sample.env Sample.props Sample.pipelines eq_refl)
    as (tree & Hrender & Hlen & _).
  exists tree. split; [exact Hrender | exact Hlen].
Defined.

(** C10, as stated, fails: setting the accent colour of the first sample
    button to red changes the tree, because the click handlers carry the
    application and the button, accent colour included. *)
Lemma recolor_changes_click_handlers :
  render Sample.UNIT Sample.PADDING_UNITS Sample.symbols Sample.env
    (recolor 0 (value "red") Sample.props)
  <> render Sample.UNIT Sample.PADDING_UNITS Sample.symbols Sample.env
       Sample.props.
Proof.
  intros Hsame. vm_compute in Hsame. discriminate Hsame.
Qed.

(** * Further properties of the footer *)

(** ** Strings *)

Lemma append_cancel_l (s a b : string) : s ++ a = s ++ b -> a = b.
Proof. induction s as [|c s IH]; simpl; [done|]. intros [= H]. by apply IH. Qed.

Lemma append_length (a b : string) :
  String.length (a ++ b) = String.length a + String.length b.
Proof. induction a as [|c a IH]; simpl; [done|]. by rewrite IH. Qed.

Lemma append_cancel_r (s a b : string) : a ++ s = b ++ s -> a = b.
Proof.
  revert b. induction a as [|c a IH]; intros [|d b] Heq.
  - done.
  - change (s = String d (b ++ s)) in Heq.
    apply (f_equal String.length) in Heq. cbn [String.length] in Heq.
    rewrite (append_length b s) in Heq. lia.
  - change (String c (a ++ s) = s) in Heq.
    apply (f_equal String.length) in Heq. cbn [String.length] in Heq.
    rewrite (append_length a s) in Heq. lia.
  - change (String c (a ++ s) = String d (b ++ s)) in Heq.
    injection Heq as -> Heq. f_equal. by apply IH.
Qed.

Lemma template_number_inj (n m : nat) :
  template_number n = template_number m -> n = m.
Proof.
  unfold template_number. intros Heq.
  apply (f_equal NilEmpty.uint_of_string) in Heq.
  rewrite !NilEmpty.usu in Heq. injection Heq as Heq.
  apply (f_equal Nat.of_uint) in Heq.
  by rewrite !DecimalNat.Unsigned.of_to in Heq.
Qed.

Section MoreProperties.

Context {Value : Type}.
Variables UNIT PADDING_UNITS : Q.
Variable KEY_CODE_KEY_SYMBOL_MAPPING : gmap KeyCode string.

#[local] Abbreviation renderButton' :=
  (renderButton PADDING_UNITS KEY_CODE_KEY_SYMBOL_MAPPING).
#[local] Abbreviation ApplicationFooter' :=
  (ApplicationFooter UNIT PADDING_UNITS KEY_CODE_KEY_SYMBOL_MAPPING).
#[local] Abbreviation render' :=
  (render UNIT PADDING_UNITS KEY_CODE_KEY_SYMBOL_MAPPING).
#[local] Abbreviation render_calls' :=
  (render_calls UNIT PADDING_UNITS KEY_CODE_KEY_SYMBOL_MAPPING).

Implicit Types (env : Collaborators Value) (props : ApplicationProps Value).
Implicit Types (button : Button) (idx : nat).

(** ** A pass without an item *)

(** X1: a render pass over props whose item is [undefined] or [null] throws
    a [TypeError], and throws it before it has called any collaborator. *)
Theorem render_throws_without_item env props :
  missing (item props) ->
  exists message,
    run env (ApplicationFooter' props) = ([], inl (TypeError message))
    /\ render' env props = inl (TypeError message)
    /\ render_calls' env props = [].
Proof.
  unfold render, render_calls, ApplicationFooter.
  destruct (item props) as [| |it]; simpl; [by eexists..|done].
Qed.

(** ** The uuid of a button control *)

Lemma control_uuid env props it :
  item props = value it ->
  exists tree,
    render' env props = inr tree
    /\ length (button_controls tree) = length (buttons_list props)
    /\ forall idx ctl,
         button_controls tree !! idx = Some ctl ->
         uuid ctl.1
         = template (Item.uuid it) ++ "-"
           ++ template (application props ?. Application.uuid) ++ "-"
           ++ template_number idx ++ "-button".
Proof.
  intros Hit.
  destruct (render_controls UNIT PADDING_UNITS KEY_CODE_KEY_SYMBOL_MAPPING
              env props it Hit) as (tree & Hrun & _ & Hlen & Hctl).
  exists tree. split; [by apply render_of_run in Hrun as [? _]|].
  split; [done|]. intros idx ctl Hlook.
  destruct (control_button props tree idx ctl Hlen Hlook) as [button Hb].
  destruct (Hctl idx button Hb) as (p & Hp & _ & Hlook' & _).
  unfold Element, Handler in *. rewrite Hlook in Hlook'.
  injection Hlook' as ->. cbn [fst].
  unfold renderButton in Hp. injection Hp as <-. cbn [uuid].
  by rewrite Hit.
Qed.

(** X2: the [uuid] of the control at [idx] is the item's uuid, the
    application's uuid, [idx] in decimal and the word button, joined by
    dashes, with a missing uuid printed as the template literal prints it;
    so within one pass no two controls share a [uuid], whatever their
    labels. *)
Theorem control_uuids_distinct env props it :
  item props = value it ->
  exists tree,
    render' env props = inr tree
    /\ length (control_uuids tree) = length (buttons_list props)
    /\ (forall idx,
          idx < length (buttons_list props) ->
          control_uuids tree !! idx
          = Some (template (Item.uuid it) ++ "-"
                  ++ template (application props ?. Application.uuid) ++ "-"
                  ++ template_number idx ++ "-button"))
    /\ NoDup (control_uuids tree).
Proof.
  intros Hit.
  destruct (control_uuid env props it Hit) as (tree & Hrender & Hlen & Huuid).
  exists tree. split; [done|]. unfold control_uuids.
  split; [by rewrite length_fmap|].
  assert (forall idx u,
            ((fun ctl => uuid ctl.1) <$> button_controls tree) !! idx = Some u ->
            u = template (Item.uuid it) ++ "-"
                ++ template (application props ?. Application.uuid) ++ "-"
                ++ template_number idx ++ "-button") as Hat.
  { intros idx u. rewrite list_lookup_fmap.
    destruct (button_controls tree !! idx) as [ctl|] eqn:Hctl; [|done].
    intros [= <-]. by apply Huuid. }
  split.
  - intros idx Hidx. rewrite <- Hlen in Hidx.
    destruct (lookup_lt_is_Some_2 _ _ Hidx) as [ctl Hctl].
    rewrite list_lookup_fmap, Hctl. simpl. f_equal. by apply Huuid.
  - apply NoDup_alt. intros i j u Hi Hj.
    apply Hat in Hi, Hj. rewrite Hi in Hj.
    do 4 apply append_cancel_l in Hj.
    by apply append_cancel_r, template_number_inj in Hj.
Qed.


(** ** The left-hand region *)

(** X3: the left-hand region is the icon the lookup gave for the item, filled
    with the accent of the colour the lookup gave and sized twice the unit,
    a gap, the item's title and a spacing; a missing colour leaves the icon
    without fill and a missing title leaves the text empty.  Nothing of the
    application, the callbacks or the refs shows in it. *)
Theorem left_region_shows_icon_and_title env props it :
  item props = value it ->
  exists tree,
    render' env props = inr tree
    /\ length (rendered_children tree) = 2
    /\ left_region tree
       = [ Icon (getIcon env it) (getIconColor env it ?. accent) (2 * UNIT)%Q;
           div (1.5 * UNIT)%Q;
           Text true 4 [jsx_text (Item.title it)];
           Spacing PADDING_UNITS ]
    /\ (missing (getIconColor env it) ->
        left_region tree !! 0
        = Some (Icon (getIcon env it) undefined (2 * UNIT)%Q))
    /\ (forall title,
          Item.title it = value title ->
          flat_map rendered_children (left_region tree) = [jsx_string title])
    /\ (missing (Item.title it) ->
        flat_map rendered_children (left_region tree) = []).
Proof.
  intros Hit. unfold render, ApplicationFooter. rewrite Hit. simpl.
  eexists. split; [reflexivity|]. split; [reflexivity|].
  split; [reflexivity|]. unfold left_region. simpl. split; [|split].
  - intros Hmiss. by destruct (getIconColor env it).
  - by intros title ->.
  - intros Hmiss. by destruct (Item.title it).
Qed.

(** ** What reaches the screen *)

Lemma displayed_renderButton_shown props1 props2 n1 n2 button1 button2 idx :
  item props1 = item props2 ->
  application props1 ?. Application.uuid = application props2 ?. Application.uuid ->
  shown_fields button1 = shown_fields button2 ->
  (2 <=? n1)%nat = (2 <=? n2)%nat ->
  displayed (renderButton' props1 n1 button1 idx)
  = displayed (renderButton' props2 n2 button2 idx).
Proof.
  intros Hitem Huuid [= Hlabel Hkeys] Hcount.
  unfold displayed, renderButton. cbn [map_onClick List.map map_props_onClick
    addPlusSignBetweenKeys bold compact default keyTextGroups keyTextsPosition
    noBackground onClick uuid].
  by rewrite Hitem, Huuid, Hlabel, Hkeys, Hcount.
Qed.

(** X4: what is displayed is fixed by the item, the application's uuid and,
    button by button, the label and the key codes.  Two passes over props
    that agree on these give trees that are equal once the click handlers are
    left out, and make the same calls, whatever the tooltips, the display
    settings, the callbacks, the refs and the focused index are. *)
Theorem displayed_determined_by_shown_fields env props1 props2 :
  item props1 = item props2 ->
  application props1 ?. Application.uuid = application props2 ?. Application.uuid ->
  optional_map (application props1 ?. Application.buttons) shown_fields
  = optional_map (application props2 ?. Application.buttons) shown_fields ->
  sum_map id displayed (render' env props1)
  = sum_map id displayed (render' env props2)
  /\ render_calls' env props1 = render_calls' env props2.
Proof.
  intros Hitem Huuid Hshown. unfold render, render_calls, ApplicationFooter.
  rewrite Hitem. destruct (item props2) as [| |it] eqn:Hit; [done..|].
  split; [|done]. unfold displayed. simpl. do 6 f_equal.
  destruct (application props1 ?. Application.buttons) as [| |bs1];
    destruct (application props2 ?. Application.buttons) as [| |bs2];
    try done.
  simpl in *. injection Hshown as Hshown. f_equal.
  assert (length bs1 = length bs2) as Hlen.
  { apply (f_equal length) in Hshown. by rewrite !length_fmap in Hshown. }
  change (displayed
            <$> imap (fun idx a => renderButton' props1 (length bs1) a idx) bs1
          = displayed
              <$> imap (fun idx a => renderButton' props2 (length bs2) a idx) bs2).
  apply list_eq. intros idx.
  rewrite !list_lookup_fmap, !list_lookup_imap.
  apply (f_equal (fun l => l !! idx)) in Hshown.
  rewrite !list_lookup_fmap in Hshown.
  destruct (bs1 !! idx) as [button1|], (bs2 !! idx) as [button2|];
    try done.
  assert (shown_fields button1 = shown_fields button2) as Hfields
    by (cbv [fmap option_fmap option_map] in Hshown; congruence).
  cbn [fmap option_fmap option_map]. f_equal.
  apply displayed_renderButton_shown; [by rewrite Hitem, Hit|done|done|].
  by rewrite Hlen.
Qed.

(** X5: a button's container depends on the rest of the list only through
    whether there are 2 buttons or more.  For props with the same item and
    application uuid, buttons at the same index with the same label and key
    codes are displayed alike whenever both lists have, or both lack, a
    second button. *)
Theorem displayed_button_is_local env props1 props2 it idx button1 button2 :
  item props1 = value it ->
  item props2 = value it ->
  application props1 ?. Application.uuid = application props2 ?. Application.uuid ->
  buttons_list props1 !! idx = Some button1 ->
  buttons_list props2 !! idx = Some button2 ->
  shown_fields button1 = shown_fields button2 ->
  (2 <= length (buttons_list props1) <-> 2 <= length (buttons_list props2)) ->
  exists tree1 tree2 container1 container2,
    render' env props1 = inr tree1
    /\ render' env props2 = inr tree2
    /\ right_region tree1 !! idx = Some container1
    /\ right_region tree2 !! idx = Some container2
    /\ displayed container1 = displayed container2.
Proof.
  intros Hit1 Hit2 Huuid Hb1 Hb2 Hshown Hcount.
  destruct (render_controls UNIT PADDING_UNITS KEY_CODE_KEY_SYMBOL_MAPPING
              env props1 it Hit1) as (tree1 & Hrun1 & _ & _ & Hctl1).
  destruct (render_controls UNIT PADDING_UNITS KEY_CODE_KEY_SYMBOL_MAPPING
              env props2 it Hit2) as (tree2 & Hrun2 & _ & _ & Hctl2).
  destruct (Hctl1 idx button1 Hb1) as (_ & _ & Hright1 & _).
  destruct (Hctl2 idx button2 Hb2) as (_ & _ & Hright2 & _).
  eexists tree1, tree2, _, _.
  split; [by apply render_of_run in Hrun1 as [? _]|].
  split; [by apply render_of_run in Hrun2 as [? _]|].
  split; [exact Hright1|]. split; [exact Hright2|].
  apply displayed_renderButton_shown; [by rewrite Hit1, Hit2|done|done|].
  destruct (2 <=? length (buttons_list props1))%nat eqn:H1,
    (2 <=? length (buttons_list props2))%nat eqn:H2; try done.
  - apply Nat.leb_le in H1. apply Nat.leb_gt in H2. lia.
  - apply Nat.leb_gt in H1. apply Nat.leb_le in H2. lia.
Qed.

(** ** What is never read *)

(** X6: [applicationsRef] is never read: a pass over props with another
    [applicationsRef] makes the same calls and gives the same tree, click
    handlers and the bundles they pass included. *)
Theorem applicationsRef_is_never_read env props ref :
  run env (ApplicationFooter' (with_applicationsRef ref props))
  = run env (ApplicationFooter' props).
Proof. reflexivity. Qed.

End MoreProperties.

(** * The further properties at the sample inputs *)

Lemma render_throws_without_item_witness :
  exists message,
    run Sample.env
      (ApplicationFooter Sample.UNIT Sample.PADDING_UNITS Sample.symbols
         MoreSamples.props_without_item)
    = ([], inl (TypeError message))
    /\ render Sample.UNIT Sample.PADDING_UNITS Sample.symbols Sample.env
         MoreSamples.props_without_item
       = inl (TypeError message)
    /\ render_calls Sample.UNIT Sample.PADDING_UNITS Sample.symbols Sample.env
         MoreSamples.props_without_item
       = [].
Proof.
  exact (render_throws_without_item Sample.UNIT Sample.PADDING_UNITS
           Sample.symbols Sample.env MoreSamples.props_without_item I).
Defined.

Lemma control_uuids_distinct_witness :
  exists tree,
    render Sample.UNIT Sample.PADDING_UNITS Sample.symbols Sample.env Sample.props
    = inr tree
    /\ control_uuids tree !! 1 = Some "item-app-1-button"
    /\ NoDup (control_uuids tree).
Proof.
  destruct (control_uuids_distinct Sample.UNIT Sample.PADDING_UNITS
              Sample.symbols Sample.env Sample.props Sample.pipelines eq_refl)
    as (tree & Hrender & _ & Hat & Hdistinct).
  exists tree. split; [exact Hrender|]. split; [|exact Hdistinct].
  apply (Hat 1). simpl. lia.
Defined.

Lemma left_region_shows_icon_and_title_witness :
  exists tree,
    render Sample.UNIT Sample.PADDING_UNITS Sample.symbols Sample.env Sample.props
    = inr tree
    /\ flat_map rendered_children (left_region tree) = [jsx_string "Pipelines"].
Proof.
  destruct (left_region_shows_icon_and_title Sample.UNIT Sample.PADDING_UNITS
              Sample.symbols Sample.env Sample.props Sample.pipelines eq_refl)
    as (tree & Hrender & _ & _ & _ & Htitle & _).
  exists tree. split; [exact Hrender|].
  apply Htitle. reflexivity.
Defined.

Lemma displayed_determined_by_shown_fields_witness :
  sum_map id displayed
    (render Sample.UNIT Sample.PADDING_UNITS Sample.symbols Sample.env
       Sample.props)
  = sum_map id displayed
      (render Sample.UNIT Sample.PADDING_UNITS Sample.symbols Sample.env
         MoreSamples.props).
Proof.
  apply (displayed_determined_by_shown_fields Sample.UNIT Sample.PADDING_UNITS
           Sample.symbols Sample.env Sample.props MoreSamples.props);
    reflexivity.
Defined.

Lemma displayed_button_is_local_witness :
  exists tree1 tree2 container1 container2,
    render Sample.UNIT Sample.PADDING_UNITS Sample.symbols Sample.env Sample.props
    = inr tree1
    /\ render Sample.UNIT Sample.PADDING_UNITS Sample.symbols Sample.env
         MoreSamples.props
       = inr tree2
    /\ right_region tree1 !! 0 = Some container1
    /\ right_region tree2 !! 0 = Some container2
    /\ displayed container1 = displayed container2.
Proof.
  apply (displayed_button_is_local Sample.UNIT Sample.PADDING_UNITS
           Sample.symbols Sample.env Sample.props MoreSamples.props
           Sample.pipelines 0 Sample.run_button MoreSamples.run_button);
    reflexivity.
Defined.
